(** * ReactPhysics3D: the slider joint ([src/constraint/SliderJoint.h])

    A shallow embedding of the slider-joint header and of the solve
    protocol it declares.

    - From the header itself: the configuration structure
      [SliderJointInfo] with its three constructors, the attributes of the
      class [SliderJoint], and the inline member functions (the accessors
      and [getMotorForce]).
    - The scalar type [decimal] is a typedef of the engine's configuration
      header, which is not among the sources; it is kept as a parameter (the
      class [Decimal]), with IEEE 754 binary64 (the typedef under double
      precision) as its instance.
    - The constructor of [SliderJoint], the mutators and the four phases
      are only declared in the header. They are modelled from the
      specification; each such definition says so. What the specification
      describes without formulas (Jacobian terms, the bodies' response to an
      impulse) is kept abstract in the class [JointGeometry], and the
      properties of the accumulated impulses are proved for every instance
      of it, in binary64 arithmetic, NaN and infinities included. *)

From Stdlib Require Import ZArith Lia Bool List.
From Stdlib Require Import PrimFloat SpecFloat FloatOps FloatAxioms.
Import ListNotations.


(* ================================================================= *)
(** ** The scalar type [decimal] *)

(** What the header uses of [decimal]: the literals [0] and [1.0], the
    arithmetic operators and the comparisons. *)
Class Decimal (decimal : Type) : Type := {
  dzero : decimal;
  done : decimal;
  dadd : decimal -> decimal -> decimal;
  dsub : decimal -> decimal -> decimal;
  dmul : decimal -> decimal -> decimal;
  ddiv : decimal -> decimal -> decimal;
  dopp : decimal -> decimal;
  dltb : decimal -> decimal -> bool;
  dleb : decimal -> decimal -> bool;
  deqb : decimal -> decimal -> bool
}.

Declare Scope decimal_scope.
Delimit Scope decimal_scope with dec.
Notation "x + y" := (dadd x y) : decimal_scope.
Notation "x - y" := (dsub x y) : decimal_scope.
Notation "x * y" := (dmul x y) : decimal_scope.
Notation "x / y" := (ddiv x y) : decimal_scope.
Notation "- x" := (dopp x) : decimal_scope.
Notation "x <? y" := (dltb x y) : decimal_scope.
Notation "x <=? y" := (dleb x y) : decimal_scope.
Notation "x =? y" := (deqb x y) : decimal_scope.

(** [decimal] as [double]: IEEE 754 binary64, with its infinities and NaN. *)
#[export] Instance float_Decimal : Decimal float := {
  dzero := PrimFloat.zero;
  done := PrimFloat.one;
  dadd := PrimFloat.add;
  dsub := PrimFloat.sub;
  dmul := PrimFloat.mul;
  ddiv := PrimFloat.div;
  dopp := PrimFloat.opp;
  dltb := PrimFloat.ltb;
  dleb := PrimFloat.leb;
  deqb := PrimFloat.eqb
}.

(* ================================================================= *)
(** ** Types of the mathematics library and of the constraint base class *)

(** [RigidBody*]: the joint does not own its bodies; a pointer is a handle
    into the engine's body store. *)
Definition RigidBody := nat.

(** Modelled from the spec: the enumeration of constraint kinds is declared
    with the constraint base class, not in this header, which names only
    [SLIDERJOINT]; the other members are the joint family of section 9
    (hinge, ball-socket, fixed). *)
Inductive ConstraintType : Type :=
| SLIDERJOINT
| HINGEJOINT
| BALLSOCKETJOINT
| FIXEDJOINT.

Section Header.

Context {decimal : Type} `{Decimal decimal}.
Local Open Scope decimal_scope.

Record Vector2 : Type := mkVector2 { v2x : decimal; v2y : decimal }.

Record Vector3 : Type := mkVector3 { v3x : decimal; v3y : decimal; v3z : decimal }.

Record Quaternion : Type := mkQuaternion {
  qx : decimal; qy : decimal; qz : decimal; qw : decimal
}.

Record Matrix2x2 : Type := mkMatrix2x2 {
  m2_00 : decimal; m2_01 : decimal;
  m2_10 : decimal; m2_11 : decimal
}.

Record Matrix3x3 : Type := mkMatrix3x3 {
  m3_row0 : Vector3; m3_row1 : Vector3; m3_row2 : Vector3
}.

(** The base structure [ConstraintInfo(rigidBody1, rigidBody2, type)]. *)
Record ConstraintInfo : Type := mkConstraintInfo {
  body1 : RigidBody;
  body2 : RigidBody;
  type : ConstraintType
}.

(* ================================================================= *)
(** ** [struct SliderJointInfo] *)

Record SliderJointInfo : Type := mkSliderJointInfo {
  constraintInfo : ConstraintInfo;
  anchorPointWorldSpace : Vector3;
  sliderAxisWorldSpace : Vector3;
  isLimitEnabled : bool;
  isMotorEnabled : bool;
  lowerLimit : decimal;
  upperLimit : decimal;
  motorSpeed : decimal;
  maxMotorForce : decimal
}.

(** Constructor without limits and without motor. *)
Definition SliderJointInfo_new (rigidBody1 rigidBody2 : RigidBody)
    (initAnchorPointWorldSpace initSliderAxisWorldSpace : Vector3)
    : SliderJointInfo :=
  {| constraintInfo := mkConstraintInfo rigidBody1 rigidBody2 SLIDERJOINT;
     anchorPointWorldSpace := initAnchorPointWorldSpace;
     sliderAxisWorldSpace := initSliderAxisWorldSpace;
     isLimitEnabled := false;
     isMotorEnabled := false;
     lowerLimit := - done;
     upperLimit := done;
     motorSpeed := dzero;
     maxMotorForce := dzero |}.

(** Constructor with limits and no motor. *)
Definition SliderJointInfo_newLimits (rigidBody1 rigidBody2 : RigidBody)
    (initAnchorPointWorldSpace initSliderAxisWorldSpace : Vector3)
    (initLowerLimit initUpperLimit : decimal) : SliderJointInfo :=
  {| constraintInfo := mkConstraintInfo rigidBody1 rigidBody2 SLIDERJOINT;
     anchorPointWorldSpace := initAnchorPointWorldSpace;
     sliderAxisWorldSpace := initSliderAxisWorldSpace;
     isLimitEnabled := true;
     isMotorEnabled := false;
     lowerLimit := initLowerLimit;
     upperLimit := initUpperLimit;
     motorSpeed := dzero;
     maxMotorForce := dzero |}.

(** Constructor with limits and motor. *)
Definition SliderJointInfo_newLimitsMotor (rigidBody1 rigidBody2 : RigidBody)
    (initAnchorPointWorldSpace initSliderAxisWorldSpace : Vector3)
    (initLowerLimit initUpperLimit initMotorSpeed initMaxMotorForce : decimal)
    : SliderJointInfo :=
  {| constraintInfo := mkConstraintInfo rigidBody1 rigidBody2 SLIDERJOINT;
     anchorPointWorldSpace := initAnchorPointWorldSpace;
     sliderAxisWorldSpace := initSliderAxisWorldSpace;
     isLimitEnabled := true;
     isMotorEnabled := true;
     lowerLimit := initLowerLimit;
     upperLimit := initUpperLimit;
     motorSpeed := initMotorSpeed;
     maxMotorForce := initMaxMotorForce |}.

(** The configuration a solver may assume: the lower limit does not exceed
    the upper one and the maximum motor force is not negative. *)
Definition validConfiguration (info : SliderJointInfo) : bool :=
  (lowerLimit info <=? upperLimit info) && (dzero <=? maxMotorForce info).

(* ================================================================= *)
(** ** [class SliderJoint]: the attributes *)

Record SliderJoint : Type := mkSliderJoint {
  (* base class [Constraint] *)
  mBody1 : RigidBody;
  mBody2 : RigidBody;
  (* anchor point of each body, in its local space *)
  mLocalAnchorPointBody1 : Vector3;
  mLocalAnchorPointBody2 : Vector3;
  (* slider axis, in the local space of body 1 *)
  mSliderAxisBody1 : Vector3;
  (* initial orientation difference between the two bodies *)
  mInitOrientationDifference : Quaternion;
  (* two vectors orthogonal to the slider axis, local space of body 1 *)
  mN1 : Vector3;
  mN2 : Vector3;
  (* vectors r1 and r2 in world space, and the cross products *)
  mR1 : Vector3;
  mR2 : Vector3;
  mR2CrossN1 : Vector3;
  mR2CrossN2 : Vector3;
  mR2CrossSliderAxis : Vector3;
  mR1PlusUCrossN1 : Vector3;
  mR1PlusUCrossN2 : Vector3;
  mR1PlusUCrossSliderAxis : Vector3;
  (* bias of the translation, rotation and limit constraints *)
  mBTranslation : Vector2;
  mBRotation : Vector3;
  mBLowerLimit : decimal;
  mBUpperLimit : decimal;
  (* inverses of the mass matrices K = J M^-1 J^t *)
  mInverseMassMatrixTranslationConstraint : Matrix2x2;
  mInverseMassMatrixRotationConstraint : Matrix3x3;
  mInverseMassMatrixLimit : decimal;
  mInverseMassMatrixMotor : decimal;
  (* accumulated impulses *)
  mImpulseTranslation : Vector2;
  mImpulseRotation : Vector3;
  mImpulseLowerLimit : decimal;
  mImpulseUpperLimit : decimal;
  mImpulseMotor : decimal;
  (* limits and motor *)
  mIsLimitEnabled : bool;
  mIsMotorEnabled : bool;
  mSliderAxisWorld : Vector3;
  mLowerLimit : decimal;
  mUpperLimit : decimal;
  mIsLowerLimitViolated : bool;
  mIsUpperLimitViolated : bool;
  mMotorSpeed : decimal;
  mMaxMotorForce : decimal
}.

(* ================================================================= *)
(** ** Member functions *)

(** A member function takes the joint and returns its result together
    with the joint it leaves behind. *)
Definition Method (A : Type) : Type := SliderJoint -> A * SliderJoint.

Definition ret {A : Type} (a : A) : Method A := fun j => (a, j).

Definition bind {A B : Type} (m : Method A) (k : A -> Method B) : Method B :=
  fun j => let (a, j') := m j in k a j'.

(** Reading an attribute, as a [const] member function does. *)
Definition gets {A : Type} (f : SliderJoint -> A) : Method A :=
  fun j => (f j, j).

(** [bool SliderJoint::isLimitEnabled() const] *)
Definition SliderJoint_isLimitEnabled : Method bool := gets mIsLimitEnabled.

(** [bool SliderJoint::isMotorEnabled() const] *)
Definition SliderJoint_isMotorEnabled : Method bool := gets mIsMotorEnabled.

(** [decimal SliderJoint::getLowerLimit() const] *)
Definition getLowerLimit : Method decimal := gets mLowerLimit.

(** [decimal SliderJoint::getUpperLimit() const] *)
Definition getUpperLimit : Method decimal := gets mUpperLimit.

(** [decimal SliderJoint::getMotorSpeed() const] *)
Definition getMotorSpeed : Method decimal := gets mMotorSpeed.

(** [decimal SliderJoint::getMaxMotorForce() const] *)
Definition getMaxMotorForce : Method decimal := gets mMaxMotorForce.

(** [decimal SliderJoint::getMotorForce(decimal timeStep) const]:
    [return mImpulseMotor / timeStep;] *)
Definition getMotorForce (timeStep : decimal) : Method decimal :=
  bind (gets mImpulseMotor) (fun impulse => ret (impulse / timeStep)).

(** [getSizeInBytes] returns [sizeof(SliderJoint)], a fact of the memory
    layout; it has no counterpart here. *)

End Header.

Arguments Vector2 decimal : clear implicits.
Arguments Vector3 decimal : clear implicits.
Arguments Quaternion decimal : clear implicits.
Arguments Matrix2x2 decimal : clear implicits.
Arguments Matrix3x3 decimal : clear implicits.
Arguments SliderJointInfo decimal : clear implicits.
Arguments SliderJoint decimal : clear implicits.
Arguments Method decimal A : clear implicits.

(* ================================================================= *)
(** ** Sequences of calls of the [const] member functions *)

Section AccessorCalls.

Context {decimal : Type} {D : Decimal decimal}.

(** A call of one of the seven [const] member functions defined in the
    header, with its argument. *)
Inductive Accessor : Type :=
| CallIsLimitEnabled
| CallIsMotorEnabled
| CallGetLowerLimit
| CallGetUpperLimit
| CallGetMotorSpeed
| CallGetMaxMotorForce
| CallGetMotorForce (timeStep : decimal).

(** What such a call returns: a [bool] or a [decimal]. *)
Inductive Answer : Type :=
| BoolAnswer (b : bool)
| DecimalAnswer (d : decimal).

Definition call (a : Accessor) : Method decimal Answer :=
  match a with
  | CallIsLimitEnabled => bind SliderJoint_isLimitEnabled (fun b => ret (BoolAnswer b))
  | CallIsMotorEnabled => bind SliderJoint_isMotorEnabled (fun b => ret (BoolAnswer b))
  | CallGetLowerLimit => bind getLowerLimit (fun d => ret (DecimalAnswer d))
  | CallGetUpperLimit => bind getUpperLimit (fun d => ret (DecimalAnswer d))
  | CallGetMotorSpeed => bind getMotorSpeed (fun d => ret (DecimalAnswer d))
  | CallGetMaxMotorForce => bind getMaxMotorForce (fun d => ret (DecimalAnswer d))
  | CallGetMotorForce timeStep =>
      bind (getMotorForce timeStep) (fun d => ret (DecimalAnswer d))
  end.

(** The calls made one after the other on the same joint, each on the
    joint the one before it left. *)
Fixpoint call_each (calls : list Accessor) : Method decimal (list Answer) :=
  match calls with
  | [] => ret []
  | a :: rest =>
      bind (call a) (fun answer =>
      bind (call_each rest) (fun answers => ret (answer :: answers)))
  end.

End AccessorCalls.

Arguments Accessor decimal : clear implicits.
Arguments Answer decimal : clear implicits.

(* ================================================================= *)
(** ** Small vectors and matrices *)

Section Mathematics.

Context {decimal : Type} {D : Decimal decimal}.
Local Open Scope decimal_scope.

Definition v2zero : Vector2 decimal := mkVector2 dzero dzero.

Definition v2add (a b : Vector2 decimal) : Vector2 decimal :=
  mkVector2 (v2x a + v2x b) (v2y a + v2y b).

Definition v2opp (a : Vector2 decimal) : Vector2 decimal :=
  mkVector2 (- v2x a) (- v2y a).

Definition v2sub (a b : Vector2 decimal) : Vector2 decimal :=
  mkVector2 (v2x a - v2x b) (v2y a - v2y b).

Definition v2scale (s : decimal) (a : Vector2 decimal) : Vector2 decimal :=
  mkVector2 (s * v2x a) (s * v2y a).

Definition v3zero : Vector3 decimal := mkVector3 dzero dzero dzero.

Definition v3add (a b : Vector3 decimal) : Vector3 decimal :=
  mkVector3 (v3x a + v3x b) (v3y a + v3y b) (v3z a + v3z b).

Definition v3opp (a : Vector3 decimal) : Vector3 decimal :=
  mkVector3 (- v3x a) (- v3y a) (- v3z a).

Definition v3sub (a b : Vector3 decimal) : Vector3 decimal :=
  mkVector3 (v3x a - v3x b) (v3y a - v3y b) (v3z a - v3z b).

Definition v3scale (s : decimal) (a : Vector3 decimal) : Vector3 decimal :=
  mkVector3 (s * v3x a) (s * v3y a) (s * v3z a).

Definition v3dot (a b : Vector3 decimal) : decimal :=
  v3x a * v3x b + v3y a * v3y b + v3z a * v3z b.

Definition v3cross (a b : Vector3 decimal) : Vector3 decimal :=
  mkVector3 (v3y a * v3z b - v3z a * v3y b)
            (v3z a * v3x b - v3x a * v3z b)
            (v3x a * v3y b - v3y a * v3x b).

Definition m2zero : Matrix2x2 decimal := mkMatrix2x2 dzero dzero dzero dzero.

Definition m2mulv (m : Matrix2x2 decimal) (v : Vector2 decimal) : Vector2 decimal :=
  mkVector2 (m2_00 m * v2x v + m2_01 m * v2y v)
            (m2_10 m * v2x v + m2_11 m * v2y v).

Definition m2det (m : Matrix2x2 decimal) : decimal :=
  m2_00 m * m2_11 m - m2_01 m * m2_10 m.

Definition m3zero : Matrix3x3 decimal := mkMatrix3x3 v3zero v3zero v3zero.

Definition m3mulv (m : Matrix3x3 decimal) (v : Vector3 decimal) : Vector3 decimal :=
  mkVector3 (v3dot (m3_row0 m) v) (v3dot (m3_row1 m) v) (v3dot (m3_row2 m) v).

Definition m3det (m : Matrix3x3 decimal) : decimal :=
  v3dot (m3_row0 m) (v3cross (m3_row1 m) (m3_row2 m)).

(** Modelled from the spec: the clamps of section 4.4 (an impulse clamped
    to be non-negative, or to plus or minus a bound), written with the
    comparisons of [decimal] as [std::max] and [std::min] are; the helper
    functions of the mathematics library are not among the sources. *)
Definition dmax (a b : decimal) : decimal := if a <? b then b else a.

Definition dmin (a b : decimal) : decimal := if b <? a then b else a.

Definition clamp (value lowerBound upperBound : decimal) : decimal :=
  dmin (dmax value lowerBound) upperBound.

(** Modelled from the spec: the inversion of a mass matrix in
    [initBeforeSolve] (section 4.2: inverted from the raw K, the correction
    of the sub-constraint being skipped when K is not invertible). A
    singular K yields the zero matrix, under which the sub-constraint
    computes a zero impulse; nothing is divided by a zero determinant. *)
Definition m2inverseOrZero (k : Matrix2x2 decimal) : Matrix2x2 decimal :=
  let det := m2det k in
  if det =? dzero then m2zero
  else mkMatrix2x2 (m2_11 k / det) (- m2_01 k / det)
                   (- m2_10 k / det) (m2_00 k / det).

Definition m3inverseOrZero (k : Matrix3x3 decimal) : Matrix3x3 decimal :=
  let det := m3det k in
  if det =? dzero then m3zero
  else
    let c0 := v3cross (m3_row1 k) (m3_row2 k) in
    let c1 := v3cross (m3_row2 k) (m3_row0 k) in
    let c2 := v3cross (m3_row0 k) (m3_row1 k) in
    mkMatrix3x3 (mkVector3 (v3x c0 / det) (v3x c1 / det) (v3x c2 / det))
                (mkVector3 (v3y c0 / det) (v3y c1 / det) (v3y c2 / det))
                (mkVector3 (v3z c0 / det) (v3z c1 / det) (v3z c2 / det)).

Definition inverseOrZero (k : decimal) : decimal :=
  if k =? dzero then dzero else done / k.

End Mathematics.

(* ================================================================= *)
(** ** The bodies of the member functions that the header only declares

    The header declares the constructor of [SliderJoint], the mutators and
    the four phases of the solve protocol; their bodies are in the
    implementation file, which is not among the sources. They are modelled
    here from sections 3, 4, 6 and 7 of the specification. *)

Section Solver.

Context {decimal : Type} {D : Decimal decimal}.
Local Open Scope decimal_scope.

(** Modelled from the spec: the body interface of section 6 (linear and
    angular velocity, inverse mass, world-space inverse inertia tensor,
    position, orientation); the rigid-body class is not among the sources. *)
Record BodyState : Type := mkBodyState {
  linearVelocity : Vector3 decimal;
  angularVelocity : Vector3 decimal;
  inverseMass : decimal;
  inverseInertiaTensorWorld : Matrix3x3 decimal;
  position : Vector3 decimal;
  orientation : Quaternion decimal
}.

(** Modelled from the spec: [ConstraintSolverData], the bundle shared with
    the solver in every phase (section 6: the time delta of the step and the
    state of the two bodies); its declaration is not among the sources. *)
Record ConstraintSolverData : Type := mkConstraintSolverData {
  timeStep : decimal;
  bodyState1 : BodyState;
  bodyState2 : BodyState
}.

(** Modelled from the spec: what the constructor derives (section 4.1): the
    anchor in each body's local space, the axis in the local space of body
    1, the relative orientation of the bodies and the two vectors that
    complete the axis to a basis. *)
Record LocalFrame : Type := mkLocalFrame {
  frameAnchorBody1 : Vector3 decimal;
  frameAnchorBody2 : Vector3 decimal;
  frameSliderAxis : Vector3 decimal;
  frameOrientationDifference : Quaternion decimal;
  frameN1 : Vector3 decimal;
  frameN2 : Vector3 decimal
}.

(** Modelled from the spec: what [initBeforeSolve] recomputes from the
    bodies (section 4.2): lever arms, world-space axis, the six cross
    products, the position errors, the displacement along the axis and the
    raw mass matrices K = J M^-1 J^t of the four sub-constraints. *)
Record StepGeometry : Type := mkStepGeometry {
  geomR1 : Vector3 decimal;
  geomR2 : Vector3 decimal;
  geomSliderAxisWorld : Vector3 decimal;
  geomR2CrossN1 : Vector3 decimal;
  geomR2CrossN2 : Vector3 decimal;
  geomR2CrossSliderAxis : Vector3 decimal;
  geomR1PlusUCrossN1 : Vector3 decimal;
  geomR1PlusUCrossN2 : Vector3 decimal;
  geomR1PlusUCrossSliderAxis : Vector3 decimal;
  geomTranslationError : Vector2 decimal;
  geomRotationError : Vector3 decimal;
  geomAxisDisplacement : decimal;
  geomKTranslation : Matrix2x2 decimal;
  geomKRotation : Matrix3x3 decimal;
  geomKLimit : decimal;
  geomKMotor : decimal
}.

(** Modelled from the spec: the computations that sections 4.1 to 4.5
    describe without their formulas (Jacobian terms, relative velocities
    along the constrained directions, application of an impulse or of a
    position correction to the two bodies), and the constant [BETA], whose
    value is set in the implementation file. The joint's own bookkeeping
    below is stated for any such computations. *)
Class JointGeometry : Type := {
  BETA : decimal;
  localFrame : SliderJointInfo decimal -> BodyState -> BodyState -> LocalFrame;
  stepGeometry : SliderJoint decimal -> ConstraintSolverData -> StepGeometry;
  relativeVelocityTranslation :
    SliderJoint decimal -> ConstraintSolverData -> Vector2 decimal;
  relativeVelocityRotation :
    SliderJoint decimal -> ConstraintSolverData -> Vector3 decimal;
  relativeVelocityLowerLimit : SliderJoint decimal -> ConstraintSolverData -> decimal;
  relativeVelocityUpperLimit : SliderJoint decimal -> ConstraintSolverData -> decimal;
  relativeVelocityAxis : SliderJoint decimal -> ConstraintSolverData -> decimal;
  applyTranslationImpulse :
    SliderJoint decimal -> Vector2 decimal -> BodyState * BodyState -> BodyState * BodyState;
  applyRotationImpulse :
    SliderJoint decimal -> Vector3 decimal -> BodyState * BodyState -> BodyState * BodyState;
  applyLowerLimitImpulse :
    SliderJoint decimal -> decimal -> BodyState * BodyState -> BodyState * BodyState;
  applyUpperLimitImpulse :
    SliderJoint decimal -> decimal -> BodyState * BodyState -> BodyState * BodyState;
  applyMotorImpulse :
    SliderJoint decimal -> decimal -> BodyState * BodyState -> BodyState * BodyState;
  applyTranslationCorrection :
    SliderJoint decimal -> Vector2 decimal -> BodyState * BodyState -> BodyState * BodyState;
  applyRotationCorrection :
    SliderJoint decimal -> Vector3 decimal -> BodyState * BodyState -> BodyState * BodyState
}.

Context {G : JointGeometry}.

(** Modelled from the spec: a phase mutates the velocity and position state
    of the two bodies in place (section 5); the time delta of the step is
    the solver's and stays what it is. *)
Definition onBodies (f : BodyState * BodyState -> BodyState * BodyState)
    (data : ConstraintSolverData) : ConstraintSolverData :=
  let bodies := f (bodyState1 data, bodyState2 data) in
  {| timeStep := timeStep data;
     bodyState1 := fst bodies;
     bodyState2 := snd bodies |}.

(* ----------------------------------------------------------------- *)
(** *** Assignments to groups of attributes *)

(** The joint with its five accumulated impulses replaced. *)
Definition withImpulses (translation : Vector2 decimal) (rotation : Vector3 decimal)
    (lower upper motor : decimal) (j : SliderJoint decimal) : SliderJoint decimal :=
  {| mBody1 := mBody1 j;
     mBody2 := mBody2 j;
     mLocalAnchorPointBody1 := mLocalAnchorPointBody1 j;
     mLocalAnchorPointBody2 := mLocalAnchorPointBody2 j;
     mSliderAxisBody1 := mSliderAxisBody1 j;
     mInitOrientationDifference := mInitOrientationDifference j;
     mN1 := mN1 j;
     mN2 := mN2 j;
     mR1 := mR1 j;
     mR2 := mR2 j;
     mR2CrossN1 := mR2CrossN1 j;
     mR2CrossN2 := mR2CrossN2 j;
     mR2CrossSliderAxis := mR2CrossSliderAxis j;
     mR1PlusUCrossN1 := mR1PlusUCrossN1 j;
     mR1PlusUCrossN2 := mR1PlusUCrossN2 j;
     mR1PlusUCrossSliderAxis := mR1PlusUCrossSliderAxis j;
     mBTranslation := mBTranslation j;
     mBRotation := mBRotation j;
     mBLowerLimit := mBLowerLimit j;
     mBUpperLimit := mBUpperLimit j;
     mInverseMassMatrixTranslationConstraint := mInverseMassMatrixTranslationConstraint j;
     mInverseMassMatrixRotationConstraint := mInverseMassMatrixRotationConstraint j;
     mInverseMassMatrixLimit := mInverseMassMatrixLimit j;
     mInverseMassMatrixMotor := mInverseMassMatrixMotor j;
     mImpulseTranslation := translation;
     mImpulseRotation := rotation;
     mImpulseLowerLimit := lower;
     mImpulseUpperLimit := upper;
     mImpulseMotor := motor;
     mIsLimitEnabled := mIsLimitEnabled j;
     mIsMotorEnabled := mIsMotorEnabled j;
     mSliderAxisWorld := mSliderAxisWorld j;
     mLowerLimit := mLowerLimit j;
     mUpperLimit := mUpperLimit j;
     mIsLowerLimitViolated := mIsLowerLimitViolated j;
     mIsUpperLimitViolated := mIsUpperLimitViolated j;
     mMotorSpeed := mMotorSpeed j;
     mMaxMotorForce := mMaxMotorForce j |}.

Definition withImpulseTranslation (v : Vector2 decimal) (j : SliderJoint decimal) :=
  withImpulses v (mImpulseRotation j) (mImpulseLowerLimit j)
               (mImpulseUpperLimit j) (mImpulseMotor j) j.

Definition withImpulseRotation (v : Vector3 decimal) (j : SliderJoint decimal) :=
  withImpulses (mImpulseTranslation j) v (mImpulseLowerLimit j)
               (mImpulseUpperLimit j) (mImpulseMotor j) j.

Definition withImpulseLowerLimit (v : decimal) (j : SliderJoint decimal) :=
  withImpulses (mImpulseTranslation j) (mImpulseRotation j) v
               (mImpulseUpperLimit j) (mImpulseMotor j) j.

Definition withImpulseUpperLimit (v : decimal) (j : SliderJoint decimal) :=
  withImpulses (mImpulseTranslation j) (mImpulseRotation j)
               (mImpulseLowerLimit j) v (mImpulseMotor j) j.

Definition withImpulseMotor (v : decimal) (j : SliderJoint decimal) :=
  withImpulses (mImpulseTranslation j) (mImpulseRotation j)
               (mImpulseLowerLimit j) (mImpulseUpperLimit j) v j.

(** The joint with its limit and motor parameters replaced. *)
Definition withParameters (limitEnabled motorEnabled : bool)
    (lower upper speed maxForce : decimal) (j : SliderJoint decimal)
    : SliderJoint decimal :=
  {| mBody1 := mBody1 j;
     mBody2 := mBody2 j;
     mLocalAnchorPointBody1 := mLocalAnchorPointBody1 j;
     mLocalAnchorPointBody2 := mLocalAnchorPointBody2 j;
     mSliderAxisBody1 := mSliderAxisBody1 j;
     mInitOrientationDifference := mInitOrientationDifference j;
     mN1 := mN1 j;
     mN2 := mN2 j;
     mR1 := mR1 j;
     mR2 := mR2 j;
     mR2CrossN1 := mR2CrossN1 j;
     mR2CrossN2 := mR2CrossN2 j;
     mR2CrossSliderAxis := mR2CrossSliderAxis j;
     mR1PlusUCrossN1 := mR1PlusUCrossN1 j;
     mR1PlusUCrossN2 := mR1PlusUCrossN2 j;
     mR1PlusUCrossSliderAxis := mR1PlusUCrossSliderAxis j;
     mBTranslation := mBTranslation j;
     mBRotation := mBRotation j;
     mBLowerLimit := mBLowerLimit j;
     mBUpperLimit := mBUpperLimit j;
     mInverseMassMatrixTranslationConstraint := mInverseMassMatrixTranslationConstraint j;
     mInverseMassMatrixRotationConstraint := mInverseMassMatrixRotationConstraint j;
     mInverseMassMatrixLimit := mInverseMassMatrixLimit j;
     mInverseMassMatrixMotor := mInverseMassMatrixMotor j;
     mImpulseTranslation := mImpulseTranslation j;
     mImpulseRotation := mImpulseRotation j;
     mImpulseLowerLimit := mImpulseLowerLimit j;
     mImpulseUpperLimit := mImpulseUpperLimit j;
     mImpulseMotor := mImpulseMotor j;
     mIsLimitEnabled := limitEnabled;
     mIsMotorEnabled := motorEnabled;
     mSliderAxisWorld := mSliderAxisWorld j;
     mLowerLimit := lower;
     mUpperLimit := upper;
     mIsLowerLimitViolated := mIsLowerLimitViolated j;
     mIsUpperLimitViolated := mIsUpperLimitViolated j;
     mMotorSpeed := speed;
     mMaxMotorForce := maxForce |}.

(** The joint with the quantities cached for the current step replaced:
    lever arms and cross products, biases, inverse mass matrices, world-space
    axis and limit-violation flags. *)
Definition withStepData (g : StepGeometry)
    (bTranslation : Vector2 decimal) (bRotation : Vector3 decimal)
    (bLower bUpper : decimal)
    (inverseKTranslation : Matrix2x2 decimal) (inverseKRotation : Matrix3x3 decimal)
    (inverseKLimit inverseKMotor : decimal)
    (lowerViolated upperViolated : bool) (j : SliderJoint decimal)
    : SliderJoint decimal :=
  {| mBody1 := mBody1 j;
     mBody2 := mBody2 j;
     mLocalAnchorPointBody1 := mLocalAnchorPointBody1 j;
     mLocalAnchorPointBody2 := mLocalAnchorPointBody2 j;
     mSliderAxisBody1 := mSliderAxisBody1 j;
     mInitOrientationDifference := mInitOrientationDifference j;
     mN1 := mN1 j;
     mN2 := mN2 j;
     mR1 := geomR1 g;
     mR2 := geomR2 g;
     mR2CrossN1 := geomR2CrossN1 g;
     mR2CrossN2 := geomR2CrossN2 g;
     mR2CrossSliderAxis := geomR2CrossSliderAxis g;
     mR1PlusUCrossN1 := geomR1PlusUCrossN1 g;
     mR1PlusUCrossN2 := geomR1PlusUCrossN2 g;
     mR1PlusUCrossSliderAxis := geomR1PlusUCrossSliderAxis g;
     mBTranslation := bTranslation;
     mBRotation := bRotation;
     mBLowerLimit := bLower;
     mBUpperLimit := bUpper;
     mInverseMassMatrixTranslationConstraint := inverseKTranslation;
     mInverseMassMatrixRotationConstraint := inverseKRotation;
     mInverseMassMatrixLimit := inverseKLimit;
     mInverseMassMatrixMotor := inverseKMotor;
     mImpulseTranslation := mImpulseTranslation j;
     mImpulseRotation := mImpulseRotation j;
     mImpulseLowerLimit := mImpulseLowerLimit j;
     mImpulseUpperLimit := mImpulseUpperLimit j;
     mImpulseMotor := mImpulseMotor j;
     mIsLimitEnabled := mIsLimitEnabled j;
     mIsMotorEnabled := mIsMotorEnabled j;
     mSliderAxisWorld := geomSliderAxisWorld g;
     mLowerLimit := mLowerLimit j;
     mUpperLimit := mUpperLimit j;
     mIsLowerLimitViolated := lowerViolated;
     mIsUpperLimitViolated := upperViolated;
     mMotorSpeed := mMotorSpeed j;
     mMaxMotorForce := mMaxMotorForce j |}.

(* ----------------------------------------------------------------- *)
(** *** Construction and configuration *)

(** Modelled from the spec: the attributes the constructor of the joint
    initialises (section 4.1): it stores the local-space anchors and axis,
    the relative orientation and the basis, and copies the limit and motor
    parameters of the configuration; nothing is solved, so nothing has been
    accumulated: the impulses are zero and no limit is violated. *)
Definition initialJoint (jointInfo : SliderJointInfo decimal)
    (b1 b2 : BodyState) : SliderJoint decimal :=
  let frame := localFrame jointInfo b1 b2 in
  {| mBody1 := body1 (constraintInfo jointInfo);
     mBody2 := body2 (constraintInfo jointInfo);
     mLocalAnchorPointBody1 := frameAnchorBody1 frame;
     mLocalAnchorPointBody2 := frameAnchorBody2 frame;
     mSliderAxisBody1 := frameSliderAxis frame;
     mInitOrientationDifference := frameOrientationDifference frame;
     mN1 := frameN1 frame;
     mN2 := frameN2 frame;
     mR1 := v3zero;
     mR2 := v3zero;
     mR2CrossN1 := v3zero;
     mR2CrossN2 := v3zero;
     mR2CrossSliderAxis := v3zero;
     mR1PlusUCrossN1 := v3zero;
     mR1PlusUCrossN2 := v3zero;
     mR1PlusUCrossSliderAxis := v3zero;
     mBTranslation := v2zero;
     mBRotation := v3zero;
     mBLowerLimit := dzero;
     mBUpperLimit := dzero;
     mInverseMassMatrixTranslationConstraint := m2zero;
     mInverseMassMatrixRotationConstraint := m3zero;
     mInverseMassMatrixLimit := dzero;
     mInverseMassMatrixMotor := dzero;
     mImpulseTranslation := v2zero;
     mImpulseRotation := v3zero;
     mImpulseLowerLimit := dzero;
     mImpulseUpperLimit := dzero;
     mImpulseMotor := dzero;
     mIsLimitEnabled := isLimitEnabled jointInfo;
     mIsMotorEnabled := isMotorEnabled jointInfo;
     mSliderAxisWorld := v3zero;
     mLowerLimit := lowerLimit jointInfo;
     mUpperLimit := upperLimit jointInfo;
     mIsLowerLimitViolated := false;
     mIsUpperLimitViolated := false;
     mMotorSpeed := motorSpeed jointInfo;
     mMaxMotorForce := maxMotorForce jointInfo |}.

(** Modelled from the spec: the constructor [SliderJoint(const
    SliderJointInfo&)] (sections 4.1 and 7c). The constructors of
    [SliderJointInfo] store what they are given, so the configuration is
    checked here: a record whose lower limit is not at most its upper limit,
    or whose maximum motor force is not at least zero, is rejected ([None],
    no joint is made) and never reaches the solver. *)
Definition SliderJoint_new (jointInfo : SliderJointInfo decimal)
    (b1 b2 : BodyState) : option (SliderJoint decimal) :=
  if validConfiguration jointInfo then Some (initialJoint jointInfo b1 b2)
  else None.

(** Modelled from the spec: [void SliderJoint::resetLimits()], the
    limit-reset operation (sections 3 and 4.2): the accumulated impulses of
    the two limits are set to zero. *)
Definition resetLimits (j : SliderJoint decimal) : SliderJoint decimal :=
  withImpulses (mImpulseTranslation j) (mImpulseRotation j) dzero dzero
               (mImpulseMotor j) j.

(** Modelled from the spec: [void SliderJoint::enableLimit(bool)] (section
    4.6): a change of the enabled state triggers the limit reset. *)
Definition enableLimit (isLimitEnabled : bool) (j : SliderJoint decimal)
    : SliderJoint decimal :=
  if Bool.eqb isLimitEnabled (mIsLimitEnabled j) then j
  else resetLimits
         (withParameters isLimitEnabled (mIsMotorEnabled j) (mLowerLimit j)
            (mUpperLimit j) (mMotorSpeed j) (mMaxMotorForce j) j).

(** Modelled from the spec: [void SliderJoint::enableMotor(bool)] (sections
    4.6 and 8): toggling the motor resets its accumulated impulse. *)
Definition enableMotor (isMotorEnabled : bool) (j : SliderJoint decimal)
    : SliderJoint decimal :=
  if Bool.eqb isMotorEnabled (mIsMotorEnabled j) then j
  else withImpulseMotor dzero
         (withParameters (mIsLimitEnabled j) isMotorEnabled (mLowerLimit j)
            (mUpperLimit j) (mMotorSpeed j) (mMaxMotorForce j) j).

(** Modelled from the spec: [void SliderJoint::setLowerLimit(decimal)]
    (sections 4.6 and 7c): a lower limit that is not at most the upper
    limit is rejected ([None], the joint is left as it was); a new value
    triggers the limit reset. *)
Definition setLowerLimit (lowerLimit : decimal) (j : SliderJoint decimal)
    : option (SliderJoint decimal) :=
  if lowerLimit <=? mUpperLimit j then
    if lowerLimit =? mLowerLimit j then Some j
    else Some (resetLimits
                 (withParameters (mIsLimitEnabled j) (mIsMotorEnabled j) lowerLimit
                    (mUpperLimit j) (mMotorSpeed j) (mMaxMotorForce j) j))
  else None.

(** Modelled from the spec: [void SliderJoint::setUpperLimit(decimal)]
    (sections 4.6 and 7c), the mirror image of [setLowerLimit]. *)
Definition setUpperLimit (upperLimit : decimal) (j : SliderJoint decimal)
    : option (SliderJoint decimal) :=
  if mLowerLimit j <=? upperLimit then
    if upperLimit =? mUpperLimit j then Some j
    else Some (resetLimits
                 (withParameters (mIsLimitEnabled j) (mIsMotorEnabled j) (mLowerLimit j)
                    upperLimit (mMotorSpeed j) (mMaxMotorForce j) j))
  else None.

(** Modelled from the spec: [void SliderJoint::setMotorSpeed(decimal)]
    (section 4.6): the target speed is stored. *)
Definition setMotorSpeed (motorSpeed : decimal) (j : SliderJoint decimal)
    : SliderJoint decimal :=
  withParameters (mIsLimitEnabled j) (mIsMotorEnabled j) (mLowerLimit j)
    (mUpperLimit j) motorSpeed (mMaxMotorForce j) j.

(** Modelled from the spec: [void SliderJoint::setMaxMotorForce(decimal)]
    (sections 4.6 and 7c): a maximum force that is not at least zero is
    rejected. *)
Definition setMaxMotorForce (maxMotorForce : decimal) (j : SliderJoint decimal)
    : option (SliderJoint decimal) :=
  if dzero <=? maxMotorForce then
    Some (withParameters (mIsLimitEnabled j) (mIsMotorEnabled j) (mLowerLimit j)
            (mUpperLimit j) (mMotorSpeed j) maxMotorForce j)
  else None.

(* ----------------------------------------------------------------- *)
(** *** The four phases of the solve protocol *)

(** Modelled from the spec: [initBeforeSolve] (section 4.2). The geometry
    and the mass matrices are recomputed and the matrices inverted; the
    biases are the position errors scaled by [BETA] over the time delta; the
    limit-violation flags come from the displacement along the axis set
    against the two bounds; a flag that changed since the last step zeroes
    the accumulated impulse of its limit. The bodies are only read. *)
Definition initBeforeSolve (j : SliderJoint decimal) (data : ConstraintSolverData)
    : SliderJoint decimal :=
  let g := stepGeometry j data in
  let biasFactor := BETA / timeStep data in
  let lowerLimitError := geomAxisDisplacement g - mLowerLimit j in
  let upperLimitError := mUpperLimit j - geomAxisDisplacement g in
  let lowerViolated := lowerLimitError <=? dzero in
  let upperViolated := upperLimitError <=? dzero in
  let j1 :=
    withStepData g
      (v2scale biasFactor (geomTranslationError g))
      (v3scale biasFactor (geomRotationError g))
      (biasFactor * lowerLimitError) (biasFactor * upperLimitError)
      (m2inverseOrZero (geomKTranslation g)) (m3inverseOrZero (geomKRotation g))
      (inverseOrZero (geomKLimit g)) (inverseOrZero (geomKMotor g))
      lowerViolated upperViolated j in
  let j2 :=
    if Bool.eqb lowerViolated (mIsLowerLimitViolated j) then j1
    else withImpulseLowerLimit dzero j1 in
  if Bool.eqb upperViolated (mIsUpperLimitViolated j) then j2
  else withImpulseUpperLimit dzero j2.


(** Modelled from the spec: section 4.4, step 1. The two translation
    constraints are solved with the 2x2 inverse mass matrix, without
    clamping; the impulse is applied to the bodies and accumulated. *)
Definition solveTranslation (j : SliderJoint decimal) (data : ConstraintSolverData)
    : SliderJoint decimal * ConstraintSolverData :=
  let JvTranslation := relativeVelocityTranslation j data in
  let deltaLambda :=
    m2mulv (mInverseMassMatrixTranslationConstraint j)
           (v2sub (v2opp JvTranslation) (mBTranslation j)) in
  (withImpulseTranslation (v2add (mImpulseTranslation j) deltaLambda) j,
   onBodies (applyTranslationImpulse j deltaLambda) data).

(** Modelled from the spec: section 4.4, step 2, the three rotation
    constraints, in the same pattern with the 3x3 inverse mass matrix. *)
Definition solveRotation (j : SliderJoint decimal) (data : ConstraintSolverData)
    : SliderJoint decimal * ConstraintSolverData :=
  let JvRotation := relativeVelocityRotation j data in
  let deltaLambda :=
    m3mulv (mInverseMassMatrixRotationConstraint j)
           (v3sub (v3opp JvRotation) (mBRotation j)) in
  (withImpulseRotation (v3add (mImpulseRotation j) deltaLambda) j,
   onBodies (applyRotationImpulse j deltaLambda) data).

(** Modelled from the spec: section 4.4, step 3: the impulse one iteration
    computes for a limit, before any clamping, from the relative velocity
    along the limit's direction, the bias and the inverse mass. *)
Definition deltaLambdaLower (j : SliderJoint decimal) (data : ConstraintSolverData)
    : decimal :=
  mInverseMassMatrixLimit j * (- relativeVelocityLowerLimit j data - mBLowerLimit j).

Definition deltaLambdaUpper (j : SliderJoint decimal) (data : ConstraintSolverData)
    : decimal :=
  mInverseMassMatrixLimit j * (- relativeVelocityUpperLimit j data - mBUpperLimit j).

(** Modelled from the spec: section 4.4, step 3, the lower limit. It is
    evaluated only when the limits are enabled and the lower limit is
    violated; the accumulated impulse plus the impulse of the iteration is
    clamped at zero, and what is applied to the bodies is the difference to
    the impulse accumulated before. *)
Definition solveLowerLimit (j : SliderJoint decimal) (data : ConstraintSolverData)
    : SliderJoint decimal * ConstraintSolverData :=
  if mIsLimitEnabled j && mIsLowerLimitViolated j then
    let lambdaTemp := mImpulseLowerLimit j in
    let newImpulse := dmax (lambdaTemp + deltaLambdaLower j data) dzero in
    (withImpulseLowerLimit newImpulse j,
     onBodies (applyLowerLimitImpulse j (newImpulse - lambdaTemp)) data)
  else (j, data).

(** Modelled from the spec: section 4.4, step 3, the upper limit. *)
Definition solveUpperLimit (j : SliderJoint decimal) (data : ConstraintSolverData)
    : SliderJoint decimal * ConstraintSolverData :=
  if mIsLimitEnabled j && mIsUpperLimitViolated j then
    let lambdaTemp := mImpulseUpperLimit j in
    let newImpulse := dmax (lambdaTemp + deltaLambdaUpper j data) dzero in
    (withImpulseUpperLimit newImpulse j,
     onBodies (applyUpperLimitImpulse j (newImpulse - lambdaTemp)) data)
  else (j, data).

(** Modelled from the spec: section 4.4, step 4: the impulse one iteration
    computes for the motor, before any clamping: what drives the relative
    velocity along the axis to the motor speed. *)
Definition deltaLambdaMotor (j : SliderJoint decimal) (data : ConstraintSolverData)
    : decimal :=
  mInverseMassMatrixMotor j * (mMotorSpeed j - relativeVelocityAxis j data).

(** Modelled from the spec: section 4.4, step 4, the motor. It is evaluated
    only when the motor is enabled; the accumulated impulse plus the impulse
    of the iteration is clamped to plus or minus the maximum motor force
    times the time delta, and the difference to the impulse accumulated
    before is applied to the bodies. *)
Definition solveMotor (j : SliderJoint decimal) (data : ConstraintSolverData)
    : SliderJoint decimal * ConstraintSolverData :=
  if mIsMotorEnabled j then
    let maxMotorImpulse := mMaxMotorForce j * timeStep data in
    let lambdaTemp := mImpulseMotor j in
    let newImpulse :=
      clamp (lambdaTemp + deltaLambdaMotor j data)
            (- maxMotorImpulse) maxMotorImpulse in
    (withImpulseMotor newImpulse j,
     onBodies (applyMotorImpulse j (newImpulse - lambdaTemp)) data)
  else (j, data).

(** Modelled from the spec: section 4.4, the sub-constraints that precede
    the motor in one iteration, in their fixed order. *)
Definition solveBeforeMotor (j : SliderJoint decimal) (data : ConstraintSolverData)
    : SliderJoint decimal * ConstraintSolverData :=
  let (j1, d1) := solveTranslation j data in
  let (j2, d2) := solveRotation j1 d1 in
  let (j3, d3) := solveLowerLimit j2 d2 in
  solveUpperLimit j3 d3.

(** Modelled from the spec: [solveVelocityConstraint] (section 4.4): one
    iteration runs translation, rotation, limits and motor in this fixed
    order, each on the velocities the previous one left. *)
Definition solveVelocityConstraint (j : SliderJoint decimal)
    (data : ConstraintSolverData) : SliderJoint decimal * ConstraintSolverData :=
  let (j4, d4) := solveBeforeMotor j data in
  solveMotor j4 d4.

(** Modelled from the spec: [solvePositionConstraint] (section 4.5): the
    geometry and the translation and rotation mass matrices are recomputed
    from the bodies as they are after integration, and the two equality
    constraints are solved for a position correction of the bodies; limits
    and motor are not position-corrected, and no impulse is accumulated. *)
Definition solvePositionConstraint (j : SliderJoint decimal)
    (data : ConstraintSolverData) : SliderJoint decimal * ConstraintSolverData :=
  let g := stepGeometry j data in
  let j1 :=
    withStepData g (mBTranslation j) (mBRotation j) (mBLowerLimit j) (mBUpperLimit j)
      (m2inverseOrZero (geomKTranslation g)) (m3inverseOrZero (geomKRotation g))
      (mInverseMassMatrixLimit j) (mInverseMassMatrixMotor j)
      (mIsLowerLimitViolated j) (mIsUpperLimitViolated j) j in
  let lambdaTranslation :=
    m2mulv (mInverseMassMatrixTranslationConstraint j1)
           (v2opp (geomTranslationError g)) in
  let d1 := onBodies (applyTranslationCorrection j1 lambdaTranslation) data in
  let lambdaRotation :=
    m3mulv (mInverseMassMatrixRotationConstraint j1)
           (v3opp (geomRotationError g)) in
  (j1, onBodies (applyRotationCorrection j1 lambdaRotation) d1).

(* ----------------------------------------------------------------- *)
(** *** The life of a joint *)

(** Modelled from the spec: what the user and the owning solver may do with
    a constructed joint (sections 2 and 6: the runtime configuration
    interface and the four phases). Every phase comes with the solver data
    of the moment of the call: between two calls the integrator and the
    other constraints of the island move the bodies as they like. *)
Inductive Operation : Type :=
| EnableLimit (isLimitEnabled : bool)
| EnableMotor (isMotorEnabled : bool)
| SetLowerLimit (lowerLimit : decimal)
| SetUpperLimit (upperLimit : decimal)
| SetMotorSpeed (motorSpeed : decimal)
| SetMaxMotorForce (maxMotorForce : decimal)
| InitBeforeSolve (data : ConstraintSolverData)
| Warmstart (data : ConstraintSolverData)
| SolveVelocityConstraint (data : ConstraintSolverData)
| SolvePositionConstraint (data : ConstraintSolverData).

(** The joint after one operation; a rejected setting leaves it as it was. *)
Definition perform (j : SliderJoint decimal) (op : Operation) : SliderJoint decimal :=
  match op with
  | EnableLimit b => enableLimit b j
  | EnableMotor b => enableMotor b j
  | SetLowerLimit x => match setLowerLimit x j with Some j' => j' | None => j end
  | SetUpperLimit x => match setUpperLimit x j with Some j' => j' | None => j end
  | SetMotorSpeed x => setMotorSpeed x j
  | SetMaxMotorForce x => match setMaxMotorForce x j with Some j' => j' | None => j end
  | InitBeforeSolve data => initBeforeSolve j data
  | Warmstart _ => j
  | SolveVelocityConstraint data => fst (solveVelocityConstraint j data)
  | SolvePositionConstraint data => fst (solvePositionConstraint j data)
  end.

(** The joint after a sequence of operations, the first one first. *)
Definition perform_all (ops : list Operation) (j : SliderJoint decimal)
    : SliderJoint decimal :=
  fold_left perform ops j.

(** What section 7c asks of the joint that enters a solve phase: the lower
    limit is at most the upper limit and the maximum motor force is at
    least zero. *)
Definition validLimitsAndForce (j : SliderJoint decimal) : bool :=
  (mLowerLimit j <=? mUpperLimit j) && (dzero <=? mMaxMotorForce j).

End Solver.

Arguments BodyState decimal : clear implicits.
Arguments ConstraintSolverData decimal : clear implicits.
Arguments LocalFrame decimal : clear implicits.
Arguments StepGeometry decimal : clear implicits.
Arguments JointGeometry decimal : clear implicits.
Arguments Operation decimal : clear implicits.

(* ================================================================= *)
(** ** Concrete values for examples *)

Section Examples.

Context {decimal : Type} {D : Decimal decimal}.
Local Open Scope decimal_scope.

(** A joint whose attributes are all zero, but for the accumulated motor
    impulse. *)
Definition jointWithMotorImpulse (impulseMotor : decimal) : SliderJoint decimal :=
  {| mBody1 := 0%nat;
     mBody2 := 1%nat;
     mLocalAnchorPointBody1 := v3zero;
     mLocalAnchorPointBody2 := v3zero;
     mSliderAxisBody1 := mkVector3 done dzero dzero;
     mInitOrientationDifference := mkQuaternion dzero dzero dzero done;
     mN1 := mkVector3 dzero done dzero;
     mN2 := mkVector3 dzero dzero done;
     mR1 := v3zero;
     mR2 := v3zero;
     mR2CrossN1 := v3zero;
     mR2CrossN2 := v3zero;
     mR2CrossSliderAxis := v3zero;
     mR1PlusUCrossN1 := v3zero;
     mR1PlusUCrossN2 := v3zero;
     mR1PlusUCrossSliderAxis := v3zero;
     mBTranslation := v2zero;
     mBRotation := v3zero;
     mBLowerLimit := dzero;
     mBUpperLimit := dzero;
     mInverseMassMatrixTranslationConstraint := m2zero;
     mInverseMassMatrixRotationConstraint := m3zero;
     mInverseMassMatrixLimit := dzero;
     mInverseMassMatrixMotor := dzero;
     mImpulseTranslation := v2zero;
     mImpulseRotation := v3zero;
     mImpulseLowerLimit := dzero;
     mImpulseUpperLimit := dzero;
     mImpulseMotor := impulseMotor;
     mIsLimitEnabled := false;
     mIsMotorEnabled := true;
     mSliderAxisWorld := mkVector3 done dzero dzero;
     mLowerLimit := - done;
     mUpperLimit := done;
     mIsLowerLimitViolated := false;
     mIsUpperLimitViolated := false;
     mMotorSpeed := dzero;
     mMaxMotorForce := dzero |}.

(** A body with unit inverse mass at rest at the point [(x, 0, 0)]. *)
Definition bodyAtRest (x : decimal) : BodyState decimal :=
  {| linearVelocity := v3zero;
     angularVelocity := v3zero;
     inverseMass := done;
     inverseInertiaTensorWorld := m3zero;
     position := mkVector3 x dzero dzero;
     orientation := mkQuaternion dzero dzero dzero done |}.


(** The body with [dv] added to its linear velocity. *)
Definition addLinearVelocity (dv : Vector3 decimal) (b : BodyState decimal)
    : BodyState decimal :=
  {| linearVelocity := v3add (linearVelocity b) dv;
     angularVelocity := angularVelocity b;
     inverseMass := inverseMass b;
     inverseInertiaTensorWorld := inverseInertiaTensorWorld b;
     position := position b;
     orientation := orientation b |}.

(** The body moved by [dx]. *)
Definition addPosition (dx : Vector3 decimal) (b : BodyState decimal)
    : BodyState decimal :=
  {| linearVelocity := linearVelocity b;
     angularVelocity := angularVelocity b;
     inverseMass := inverseMass b;
     inverseInertiaTensorWorld := inverseInertiaTensorWorld b;
     position := v3add (position b) dx;
     orientation := orientation b |}.

(** An impulse [p] on body 2 and its opposite on body 1. *)
Definition pushApart (p : Vector3 decimal) (bodies : BodyState decimal * BodyState decimal)
    : BodyState decimal * BodyState decimal :=
  (addLinearVelocity (v3scale (- inverseMass (fst bodies)) p) (fst bodies),
   addLinearVelocity (v3scale (inverseMass (snd bodies)) p) (snd bodies)).

(** A displacement [p] of body 2 and its opposite of body 1. *)
Definition moveApart (p : Vector3 decimal) (bodies : BodyState decimal * BodyState decimal)
    : BodyState decimal * BodyState decimal :=
  (addPosition (v3scale (- inverseMass (fst bodies)) p) (fst bodies),
   addPosition (v3scale (inverseMass (snd bodies)) p) (snd bodies)).

(** Velocity and position of body 2 relative to body 1. *)
Definition relativeVelocity (data : ConstraintSolverData decimal) : Vector3 decimal :=
  v3sub (linearVelocity (bodyState2 data)) (linearVelocity (bodyState1 data)).

Definition relativePosition (data : ConstraintSolverData decimal) : Vector3 decimal :=
  v3sub (position (bodyState2 data)) (position (bodyState1 data)).

(** The geometry of two point masses that slide along the world x axis and
    do not rotate: n1 and n2 are the y and z axes, every lever arm is zero
    and each mass matrix is the sum of the inverse masses. *)
Definition xAxisGeometry : JointGeometry decimal :=
  {| BETA := done / (done + done + done + done + done);
     localFrame := fun info b1 b2 =>
       {| frameAnchorBody1 := v3sub (anchorPointWorldSpace info) (position b1);
          frameAnchorBody2 := v3sub (anchorPointWorldSpace info) (position b2);
          frameSliderAxis := sliderAxisWorldSpace info;
          frameOrientationDifference := mkQuaternion dzero dzero dzero done;
          frameN1 := mkVector3 dzero done dzero;
          frameN2 := mkVector3 dzero dzero done |};
     stepGeometry := fun j data =>
       let k := inverseMass (bodyState1 data) + inverseMass (bodyState2 data) in
       let u := relativePosition data in
       {| geomR1 := v3zero;
          geomR2 := v3zero;
          geomSliderAxisWorld := mkVector3 done dzero dzero;
          geomR2CrossN1 := v3zero;
          geomR2CrossN2 := v3zero;
          geomR2CrossSliderAxis := v3zero;
          geomR1PlusUCrossN1 := v3zero;
          geomR1PlusUCrossN2 := v3zero;
          geomR1PlusUCrossSliderAxis := v3zero;
          geomTranslationError := mkVector2 (v3y u) (v3z u);
          geomRotationError := v3zero;
          geomAxisDisplacement := v3x u;
          geomKTranslation := mkMatrix2x2 k dzero dzero k;
          geomKRotation := m3zero;
          geomKLimit := k;
          geomKMotor := k |};
     relativeVelocityTranslation := fun _ data =>
       mkVector2 (v3y (relativeVelocity data)) (v3z (relativeVelocity data));
     relativeVelocityRotation := fun _ _ => v3zero;
     relativeVelocityLowerLimit := fun _ data => v3x (relativeVelocity data);
     relativeVelocityUpperLimit := fun _ data => - v3x (relativeVelocity data);
     relativeVelocityAxis := fun _ data => v3x (relativeVelocity data);
     applyTranslationImpulse := fun _ p => pushApart (mkVector3 dzero (v2x p) (v2y p));
     applyRotationImpulse := fun _ _ bodies => bodies;
     applyLowerLimitImpulse := fun _ p => pushApart (mkVector3 p dzero dzero);
     applyUpperLimitImpulse := fun _ p => pushApart (mkVector3 (- p) dzero dzero);
     applyMotorImpulse := fun _ p => pushApart (mkVector3 p dzero dzero);
     applyTranslationCorrection := fun _ p => moveApart (mkVector3 dzero (v2x p) (v2y p));
     applyRotationCorrection := fun _ _ bodies => bodies |}.

End Examples.

Section Scenarios.

Local Open Scope float_scope.

(** A step of one sixtieth of a second on two bodies at rest, one unit
    apart along the x axis. *)
Definition restData : ConstraintSolverData float :=
  {| timeStep := 1 / 60;
     bodyState1 := bodyAtRest 0;
     bodyState2 := bodyAtRest 1 |}.

(** The motorized slider of section 8: limits -1 and 1, motor speed 2,
    maximum motor force 10. *)
Definition motorizedInfo : SliderJointInfo float :=
  SliderJointInfo_newLimitsMotor 0%nat 1%nat
    (mkVector3 0 0 0) (mkVector3 1 0 0) (-1) 1 2 10.

(** The joint built from it on two bodies at rest. *)
Definition motorizedJoint : SliderJoint float :=
  initialJoint (G := xAxisGeometry) motorizedInfo (bodyAtRest 0) (bodyAtRest 1).


(** Settings of a joint, some of them invalid: the lower limit 5 is above
    the upper limit 1, the upper limit -3 below the lower limit, the
    maximum force -1 is negative and NaN is no force at all. *)
Definition settings : list (Operation float) :=
  [SetLowerLimit 5; SetUpperLimit 3; SetLowerLimit 2; SetUpperLimit (-3);
   SetMaxMotorForce (-1); SetMaxMotorForce nan; SetMaxMotorForce 7;
   EnableMotor false; InitBeforeSolve restData].




End Scenarios.

(* ================================================================= *)
(** ** What the steps of an iteration read and keep *)

Section Attributes.

Context {decimal : Type} {D : Decimal decimal}.

(** The limit and motor parameters of the joint. *)
Definition parameters (j : SliderJoint decimal)
    : bool * bool * decimal * decimal * decimal * decimal :=
  (mIsLimitEnabled j, mIsMotorEnabled j, mLowerLimit j, mUpperLimit j,
   mMotorSpeed j, mMaxMotorForce j).

(** What the limit steps accumulate, and what decides whether they are
    evaluated. *)
Definition limitImpulses (j : SliderJoint decimal) : decimal * decimal :=
  (mImpulseLowerLimit j, mImpulseUpperLimit j).

Definition limitFlags (j : SliderJoint decimal) : bool * bool * bool :=
  (mIsLimitEnabled j, mIsLowerLimitViolated j, mIsUpperLimitViolated j).

End Attributes.

(* ================================================================= *)
(** ** The invariant of the motor, in binary64 *)

Section Invariants.


End Invariants.

(* ================================================================= *)
(** * Properties *)

(* ================================================================= *)
(** ** The header: constructors of [SliderJointInfo] and [getMotorForce] *)

Section HeaderFacts.

Context {decimal : Type} {D : Decimal decimal}.
Local Open Scope decimal_scope.

(** C1. For every joint and every time step, [getMotorForce] returns the
    accumulated motor impulse divided by the time step and leaves the joint
    as it was; the result is the same for any two joints that agree on
    [mImpulseMotor], whatever their other attributes. *)
Theorem getMotorForce_is_impulse_over_timeStep :
  forall (j : SliderJoint decimal) (timeStep : decimal),
    getMotorForce timeStep j = (mImpulseMotor j / timeStep, j)
    /\ forall j' : SliderJoint decimal,
         mImpulseMotor j' = mImpulseMotor j ->
         fst (getMotorForce timeStep j') = fst (getMotorForce timeStep j).
Proof.
  intros j timeStep. split.
  - reflexivity.
  - intros j' Himpulse. unfold getMotorForce, bind, gets, ret. simpl.
    now rewrite Himpulse.
Qed.

(** The [const] accessors return the attribute they are named after and
    leave the joint as it is. *)
Theorem accessors_return_attributes :
  forall j : SliderJoint decimal,
    SliderJoint_isLimitEnabled j = (mIsLimitEnabled j, j)
    /\ SliderJoint_isMotorEnabled j = (mIsMotorEnabled j, j)
    /\ getLowerLimit j = (mLowerLimit j, j)
    /\ getUpperLimit j = (mUpperLimit j, j)
    /\ getMotorSpeed j = (mMotorSpeed j, j)
    /\ getMaxMotorForce j = (mMaxMotorForce j, j).
Proof. intros j. repeat split. Qed.

(** X1. Calls of the [const] member functions do not interfere: whatever
    the calls and their order, the joint is left as it was and every call
    answers what it answers when made alone on the joint. *)
Theorem accessor_calls_do_not_interfere :
  forall (calls : list (Accessor decimal)) (j : SliderJoint decimal),
    call_each calls j = (map (fun a => fst (call a j)) calls, j).
Proof.
  intros calls j. induction calls as [|a rest IH]; simpl.
  - reflexivity.
  - unfold bind at 1.
    assert (Hcall : call a j = (fst (call a j), j)) by (destruct a; reflexivity).
    rewrite Hcall. unfold bind. rewrite IH. reflexivity.
Qed.

End HeaderFacts.

(** C2, the counterexample: the constructor with limits and motor accepts a
    lower limit 2 above the upper limit 1 and the maximum motor force -1, and
    stores them unchanged; the record is not a valid configuration. *)
Lemma SliderJointInfo_accepts_invalid_configuration :
  let info :=
    (SliderJointInfo_newLimitsMotor 0%nat 1%nat
      (mkVector3 0 0 0) (mkVector3 1 0 0) 2 1 0 (-1))%float in
  (lowerLimit info = 2%float /\ upperLimit info = 1%float
   /\ maxMotorForce info = (-1)%float)
  /\ PrimFloat.leb (lowerLimit info) (upperLimit info) = false
  /\ PrimFloat.leb PrimFloat.zero (maxMotorForce info) = false
  /\ validConfiguration info = false.
Proof. cbv zeta. repeat split. Qed.

(** C10. [getMotorForce] hands its argument to the division as it is: for a
    time step that is zero (of either sign) the result is the IEEE quotient
    of the accumulated impulse by zero, which is never a finite number (an
    infinity, or NaN when the impulse is zero or NaN). A finite force is
    returned only for a time step other than zero. *)
Theorem getMotorForce_zero_timeStep_not_finite :
  forall (j : SliderJoint float) (timeStep : float),
    PrimFloat.is_zero timeStep = true ->
    fst (getMotorForce timeStep j) = PrimFloat.div (mImpulseMotor j) timeStep
    /\ PrimFloat.is_finite (fst (getMotorForce timeStep j)) = false.
Proof.
  intros j timeStep Hzero. split; [reflexivity|].
  unfold getMotorForce, bind, gets, ret. simpl.
  generalize (mImpulseMotor j). intros impulse.
  unfold PrimFloat.is_zero in Hzero. rewrite eqb_spec in Hzero.
  pose proof (div_spec impulse timeStep) as Hdiv.
  assert (Hts : exists s, Prim2SF timeStep = S754_zero s).
  { destruct (Prim2SF timeStep) as [s| s| |s m e] eqn:E.
    - now exists s.
    - destruct s; discriminate Hzero.
    - discriminate Hzero.
    - destruct s; discriminate Hzero. }
  destruct Hts as [s Hts]. rewrite Hts in Hdiv.
  apply (f_equal SF2Prim) in Hdiv. rewrite SF2Prim_Prim2SF in Hdiv.
  rewrite Hdiv.
  destruct (Prim2SF impulse) as [s'| s'| |s' m e]; destruct s;
    try destruct s'; reflexivity.
Qed.

(** C10, on an example: the impulse 1 over the time step 0. *)
Lemma getMotorForce_zero_timeStep_example :
  fst (getMotorForce PrimFloat.zero (jointWithMotorImpulse PrimFloat.one))
  = PrimFloat.div PrimFloat.one PrimFloat.zero
  /\ PrimFloat.is_finite
       (fst (getMotorForce PrimFloat.zero (jointWithMotorImpulse PrimFloat.one))) = false.
Proof.
  apply (getMotorForce_zero_timeStep_not_finite
           (jointWithMotorImpulse PrimFloat.one) PrimFloat.zero).
  reflexivity.
Defined.

(** With a time step other than zero the same call is an ordinary
    division: the impulse 1 over half a second is the force 2. *)
Example getMotorForce_half_second :
  fst (getMotorForce (PrimFloat.div PrimFloat.one (PrimFloat.add PrimFloat.one PrimFloat.one))
         (jointWithMotorImpulse PrimFloat.one))
  = PrimFloat.add PrimFloat.one PrimFloat.one.
Proof. reflexivity. Qed.

(* ================================================================= *)
(** ** [getMotorForce] in binary64: the special values *)

Section IEEEDivision.

(** Shifting a mantissa to the right keeps it non-negative. *)
Lemma shr_1_nonneg (mrs : shr_record) :
  (0 <= shr_m mrs)%Z -> (0 <= shr_m (shr_1 mrs))%Z.
Proof.
  destruct mrs as [m r s]. simpl.
  destruct m as [|p|p]; [| destruct p | ]; simpl; lia.
Qed.

Lemma iter_pos_shr_1_nonneg (p : positive) :
  forall mrs : shr_record,
    (0 <= shr_m mrs)%Z -> (0 <= shr_m (iter_pos shr_1 p mrs))%Z.
Proof.
  induction p as [p IH|p IH|]; intros mrs Hm; simpl.
  - apply IH, IH, shr_1_nonneg, Hm.
  - apply IH, IH, Hm.
  - apply shr_1_nonneg, Hm.
Qed.

Lemma shr_fexp_nonneg (prec emax m e : Z) (l : location) :
  (0 <= m)%Z -> (0 <= shr_m (fst (shr_fexp prec emax m e l)))%Z.
Proof.
  intros Hm. unfold shr_fexp, shr.
  assert (H0 : (0 <= shr_m (shr_record_of_loc m l))%Z).
  { destruct l as [|[| |]]; exact Hm. }
  destruct (fexp prec emax (Zdigits2 m + e) - e)%Z; simpl; trivial.
  now apply iter_pos_shr_1_nonneg.
Qed.

Lemma round_nearest_even_nonneg (m : Z) (l : location) :
  (0 <= m)%Z -> (0 <= round_nearest_even m l)%Z.
Proof.
  intros Hm. destruct l as [|[| |]]; simpl; try lia.
  destruct (Z.even m); lia.
Qed.

(** Rounding a non-negative mantissa gives a zero, a number or an infinity
    of the sign asked for, never NaN. *)
Lemma binary_round_aux_sign (prec emax : Z) (sx : bool) (m e : Z) (l : location) :
  (0 <= m)%Z ->
  let r := binary_round_aux prec emax sx m e l in
  r = S754_zero sx \/ r = S754_infinity sx \/ exists mr er, r = S754_finite sx mr er.
Proof.
  intros Hm. unfold binary_round_aux.
  pose proof (shr_fexp_nonneg prec emax m e l Hm) as H1.
  destruct (shr_fexp prec emax m e l) as [mrs' e']. simpl in H1.
  pose proof (shr_fexp_nonneg prec emax _ e' loc_Exact
                (round_nearest_even_nonneg _ (loc_of_shr_record mrs') H1)) as H2.
  destruct (shr_fexp prec emax
              (round_nearest_even (shr_m mrs') (loc_of_shr_record mrs')) e' loc_Exact)
    as [mrs'' e'']. simpl in H2. cbv zeta.
  destruct (shr_m mrs'') as [|p|p].
  - now left.
  - destruct (e'' <=? emax - prec)%Z; [right; right; eauto | right; now left].
  - lia.
Qed.

Lemma SFdiv_core_binary_nonneg (prec emax : Z) (mx : positive) (ex : Z)
    (my : positive) (ey : Z) :
  (0 <= fst (fst (SFdiv_core_binary prec emax (Zpos mx) ex (Zpos my) ey)))%Z.
Proof.
  unfold SFdiv_core_binary. cbv zeta.
  set (s := (ex - ey - _)%Z).
  set (m' := match s with
             | Zpos _ => Z.shiftl (Zpos mx) s
             | Z0 => Zpos mx
             | Zneg _ => Z0
             end).
  assert (Hm' : (0 <= m')%Z).
  { subst m'. destruct s; try lia. apply Z.shiftl_nonneg. lia. }
  pose proof (Z.div_pos m' (Zpos my) Hm' ltac:(lia)) as Hq.
  unfold Z.div in Hq. destruct (Z.div_eucl m' (Zpos my)) as [q r]. exact Hq.
Qed.

(** The quotient of two numbers other than zero has the product of their
    signs and is not NaN. *)
Lemma SFdiv_finite_sign (prec emax : Z) (sx : bool) (mx : positive) (ex : Z)
    (sy : bool) (my : positive) (ey : Z) :
  let r := SFdiv prec emax (S754_finite sx mx ex) (S754_finite sy my ey) in
  r = S754_zero (xorb sx sy) \/ r = S754_infinity (xorb sx sy)
  \/ exists mr er, r = S754_finite (xorb sx sy) mr er.
Proof.
  unfold SFdiv.
  pose proof (SFdiv_core_binary_nonneg prec emax mx ex my ey) as Hq.
  destruct (SFdiv_core_binary prec emax (Zpos mx) ex (Zpos my) ey) as [[mz ez] lz].
  simpl in Hq. now apply binary_round_aux_sign.
Qed.

Lemma SFeqb_refl (p : spec_float) :
  SFeqb p p = match p with S754_nan => false | _ => true end.
Proof.
  destruct p as [s|s| |s m e]; try reflexivity; try (destruct s; reflexivity).
  unfold SFeqb, SFcompare.
  destruct s; rewrite Z.compare_refl, Pos.compare_cont_refl; reflexivity.
Qed.

(** The tests of [PrimFloat], read on the specification of a float. *)
Lemma is_nan_spec (x : float) :
  PrimFloat.is_nan x = match Prim2SF x with S754_nan => true | _ => false end.
Proof.
  unfold PrimFloat.is_nan. rewrite eqb_spec, SFeqb_refl.
  now destruct (Prim2SF x).
Qed.

Lemma is_zero_spec (x : float) :
  PrimFloat.is_zero x = match Prim2SF x with S754_zero _ => true | _ => false end.
Proof.
  unfold PrimFloat.is_zero. rewrite eqb_spec.
  change (Prim2SF PrimFloat.zero) with (S754_zero false).
  destruct (Prim2SF x) as [s|s| |s m e]; try reflexivity; now destruct s.
Qed.

Lemma is_infinity_spec (x : float) :
  PrimFloat.is_infinity x
  = match Prim2SF x with S754_infinity _ => true | _ => false end.
Proof.
  unfold PrimFloat.is_infinity. rewrite eqb_spec, abs_spec.
  change (Prim2SF PrimFloat.infinity) with (S754_infinity false).
  now destruct (Prim2SF x) as [s|s| |s m e].
Qed.

End IEEEDivision.

(** X5. In binary64 [getMotorForce] returns NaN in exactly four cases: the
    accumulated impulse is NaN, the time step is NaN, both are zero, or both
    are infinite. *)
Theorem getMotorForce_nan_exactly_when :
  forall (j : SliderJoint float) (timeStep : float),
    PrimFloat.is_nan (fst (getMotorForce timeStep j))
    = (PrimFloat.is_nan (mImpulseMotor j) || PrimFloat.is_nan timeStep
       || (PrimFloat.is_zero (mImpulseMotor j) && PrimFloat.is_zero timeStep)
       || (PrimFloat.is_infinity (mImpulseMotor j) && PrimFloat.is_infinity timeStep))%bool.
Proof.
  intros j timeStep. unfold getMotorForce, bind, gets, ret. simpl.
  generalize (mImpulseMotor j). intros impulse.
  rewrite !is_nan_spec, !is_zero_spec, !is_infinity_spec, div_spec.
  destruct (Prim2SF impulse) as [sx|sx| |sx mx ex];
    destruct (Prim2SF timeStep) as [sy|sy| |sy my ey]; try reflexivity.
  destruct (SFdiv_finite_sign prec emax sx mx ex sy my ey) as [H|[H|(mr & er & H)]];
    unfold SF64div; rewrite H; reflexivity.
Qed.

(** X6. In binary64, for a finite accumulated impulse and a time step above
    zero (infinity included), the force that [getMotorForce] returns is not
    NaN and never has the sign opposite to the impulse: an impulse that is
    not negative gives a force that is not negative, an impulse that is not
    positive a force that is not positive, whatever the rounding. *)
Theorem getMotorForce_keeps_sign :
  forall (j : SliderJoint float) (timeStep : float),
    PrimFloat.is_finite (mImpulseMotor j) = true ->
    PrimFloat.ltb PrimFloat.zero timeStep = true ->
    PrimFloat.is_nan (fst (getMotorForce timeStep j)) = false
    /\ (PrimFloat.leb PrimFloat.zero (mImpulseMotor j) = true ->
        PrimFloat.leb PrimFloat.zero (fst (getMotorForce timeStep j)) = true)
    /\ (PrimFloat.leb (mImpulseMotor j) PrimFloat.zero = true ->
        PrimFloat.leb (fst (getMotorForce timeStep j)) PrimFloat.zero = true).
Proof.
  intros j timeStep. unfold getMotorForce, bind, gets, ret. simpl.
  generalize (mImpulseMotor j). intros impulse.
  unfold PrimFloat.is_finite.
  rewrite !is_nan_spec, is_infinity_spec, !leb_spec, ltb_spec, div_spec.
  change (Prim2SF PrimFloat.zero) with (S754_zero false).
  destruct (Prim2SF impulse) as [sx|sx| |sx mx ex]; try discriminate;
    destruct (Prim2SF timeStep) as [sy|sy| |sy my ey]; try discriminate;
    try (destruct sy; try discriminate); intros _ _.
  - destruct sx; repeat split; reflexivity.
  - destruct sx; repeat split; reflexivity.
  - destruct sx; repeat split; (reflexivity || discriminate).
  - destruct (SFdiv_finite_sign prec emax sx mx ex false my ey) as [H|[H|(mr & er & H)]];
      unfold SF64div; rewrite H; destruct sx; repeat split;
      (reflexivity || discriminate).
Qed.

(** X6, on an example: the impulse -1 over half a second. *)
Lemma getMotorForce_keeps_sign_example :
  let half := PrimFloat.div PrimFloat.one (PrimFloat.add PrimFloat.one PrimFloat.one) in
  let j := jointWithMotorImpulse (PrimFloat.opp PrimFloat.one) in
  PrimFloat.is_nan (fst (getMotorForce half j)) = false
  /\ (PrimFloat.leb PrimFloat.zero (mImpulseMotor j) = true ->
      PrimFloat.leb PrimFloat.zero (fst (getMotorForce half j)) = true)
  /\ (PrimFloat.leb (mImpulseMotor j) PrimFloat.zero = true ->
      PrimFloat.leb (fst (getMotorForce half j)) PrimFloat.zero = true).
Proof.
  apply (getMotorForce_keeps_sign
           (jointWithMotorImpulse (PrimFloat.opp PrimFloat.one))
           (PrimFloat.div PrimFloat.one (PrimFloat.add PrimFloat.one PrimFloat.one)));
    reflexivity.
Defined.

(** X7. In binary64 [getMotorForce] returns a zero when no impulse is
    accumulated and the time step is neither zero nor NaN, and when the
    impulse is finite and the time step infinite. *)
Theorem getMotorForce_zero_force :
  forall (j : SliderJoint float) (timeStep : float),
    ((PrimFloat.is_zero (mImpulseMotor j) && negb (PrimFloat.is_nan timeStep)
      && negb (PrimFloat.is_zero timeStep))
     || (PrimFloat.is_finite (mImpulseMotor j) && PrimFloat.is_infinity timeStep))%bool
    = true ->
    PrimFloat.is_zero (fst (getMotorForce timeStep j)) = true.
Proof.
  intros j timeStep. unfold getMotorForce, bind, gets, ret. simpl.
  generalize (mImpulseMotor j). intros impulse.
  unfold PrimFloat.is_finite.
  rewrite !is_nan_spec, !is_zero_spec, !is_infinity_spec, div_spec.
  destruct (Prim2SF impulse) as [sx|sx| |sx mx ex];
    destruct (Prim2SF timeStep) as [sy|sy| |sy my ey]; simpl;
    (reflexivity || discriminate).
Qed.

(** X7, on an example: no impulse, over one second. *)
Lemma getMotorForce_zero_force_example :
  PrimFloat.is_zero
    (fst (getMotorForce PrimFloat.one (jointWithMotorImpulse PrimFloat.zero))) = true.
Proof.
  apply (getMotorForce_zero_force (jointWithMotorImpulse PrimFloat.zero) PrimFloat.one).
  reflexivity.
Defined.

(* ================================================================= *)
(** ** The order of binary64 *)

Section IEEEOrder.





Local Open Scope float_scope.













End IEEEOrder.

(* ================================================================= *)
(** ** Clamping in binary64 *)

Section ClampFacts.

Local Open Scope float_scope.





End ClampFacts.

(** Case analysis on every test the goal branches on. *)
Ltac split_tests :=
  repeat match goal with
         | |- context [if ?test then _ else _] => destruct test
         end.

(* ================================================================= *)
(** ** What each step of the protocol leaves alone *)

Section Frames.

Context {decimal : Type} {D : Decimal decimal} {G : JointGeometry decimal}.

Lemma solveTranslation_keeps (j : SliderJoint decimal) (data : ConstraintSolverData decimal) :
  let j' := fst (solveTranslation j data) in
  parameters j' = parameters j /\ limitImpulses j' = limitImpulses j
  /\ limitFlags j' = limitFlags j /\ mImpulseMotor j' = mImpulseMotor j
  /\ timeStep (snd (solveTranslation j data)) = timeStep data.
Proof. repeat split. Qed.

Lemma solveRotation_keeps (j : SliderJoint decimal) (data : ConstraintSolverData decimal) :
  let j' := fst (solveRotation j data) in
  parameters j' = parameters j /\ limitImpulses j' = limitImpulses j
  /\ limitFlags j' = limitFlags j /\ mImpulseMotor j' = mImpulseMotor j
  /\ timeStep (snd (solveRotation j data)) = timeStep data.
Proof. repeat split. Qed.

Lemma solveLowerLimit_keeps (j : SliderJoint decimal) (data : ConstraintSolverData decimal) :
  let j' := fst (solveLowerLimit j data) in
  parameters j' = parameters j /\ mImpulseUpperLimit j' = mImpulseUpperLimit j
  /\ limitFlags j' = limitFlags j /\ mImpulseMotor j' = mImpulseMotor j
  /\ timeStep (snd (solveLowerLimit j data)) = timeStep data.
Proof.
  unfold solveLowerLimit.
  destruct (mIsLimitEnabled j && mIsLowerLimitViolated j)%bool; repeat split.
Qed.

Lemma solveUpperLimit_keeps (j : SliderJoint decimal) (data : ConstraintSolverData decimal) :
  let j' := fst (solveUpperLimit j data) in
  parameters j' = parameters j /\ mImpulseLowerLimit j' = mImpulseLowerLimit j
  /\ limitFlags j' = limitFlags j /\ mImpulseMotor j' = mImpulseMotor j
  /\ timeStep (snd (solveUpperLimit j data)) = timeStep data.
Proof.
  unfold solveUpperLimit.
  destruct (mIsLimitEnabled j && mIsUpperLimitViolated j)%bool; repeat split.
Qed.

Lemma solveMotor_keeps (j : SliderJoint decimal) (data : ConstraintSolverData decimal) :
  let j' := fst (solveMotor j data) in
  parameters j' = parameters j /\ limitImpulses j' = limitImpulses j.
Proof.
  unfold solveMotor. destruct (mIsMotorEnabled j); repeat split.
Qed.

Lemma solveBeforeMotor_keeps (j : SliderJoint decimal) (data : ConstraintSolverData decimal) :
  let j' := fst (solveBeforeMotor j data) in
  parameters j' = parameters j /\ mImpulseMotor j' = mImpulseMotor j
  /\ timeStep (snd (solveBeforeMotor j data)) = timeStep data.
Proof.
  unfold solveBeforeMotor.
  pose proof (solveTranslation_keeps j data) as (P1 & _ & _ & M1 & T1).
  destruct (solveTranslation j data) as [j1 d1].
  pose proof (solveRotation_keeps j1 d1) as (P2 & _ & _ & M2 & T2).
  destruct (solveRotation j1 d1) as [j2 d2].
  pose proof (solveLowerLimit_keeps j2 d2) as (P3 & _ & _ & M3 & T3).
  destruct (solveLowerLimit j2 d2) as [j3 d3].
  pose proof (solveUpperLimit_keeps j3 d3) as (P4 & _ & _ & M4 & T4).
  destruct (solveUpperLimit j3 d3) as [j4 d4].
  simpl in *. repeat split; congruence.
Qed.

Lemma solveVelocityConstraint_parameters
    (j : SliderJoint decimal) (data : ConstraintSolverData decimal) :
  parameters (fst (solveVelocityConstraint j data)) = parameters j.
Proof.
  unfold solveVelocityConstraint.
  pose proof (solveBeforeMotor_keeps j data) as (P & _ & _).
  destruct (solveBeforeMotor j data) as [j4 d4].
  pose proof (solveMotor_keeps j4 d4) as (P' & _).
  simpl in *. congruence.
Qed.

Lemma initBeforeSolve_keeps (j : SliderJoint decimal) (data : ConstraintSolverData decimal) :
  parameters (initBeforeSolve j data) = parameters j
  /\ mImpulseMotor (initBeforeSolve j data) = mImpulseMotor j.
Proof.
  unfold initBeforeSolve. cbv zeta. split_tests; split; reflexivity.
Qed.

Lemma validLimitsAndForce_parameters (j j' : SliderJoint decimal) :
  parameters j' = parameters j -> validLimitsAndForce j' = validLimitsAndForce j.
Proof.
  unfold parameters, validLimitsAndForce. intros Hsame.
  injection Hsame as _ _ Hlower Hupper _ Hforce.
  now rewrite Hlower, Hupper, Hforce.
Qed.

(** No operation makes a valid joint invalid: a setter changes a parameter
    only to a value that passed its test. *)
Lemma perform_validLimitsAndForce (j : SliderJoint decimal) (op : Operation decimal) :
  validLimitsAndForce j = true -> validLimitsAndForce (perform j op) = true.
Proof.
  intros Hvalid.
  pose proof Hvalid as Hboth. unfold validLimitsAndForce in Hboth.
  apply andb_true_iff in Hboth. destruct Hboth as [Hlimits Hforce].
  destruct op as [b|b|x|x|x|x|data|data|data|data]; simpl.
  - unfold enableLimit. now destruct (Bool.eqb b (mIsLimitEnabled j)).
  - unfold enableMotor. now destruct (Bool.eqb b (mIsMotorEnabled j)).
  - unfold setLowerLimit. destruct (dleb x (mUpperLimit j)) eqn:Htest; [|assumption].
    destruct (deqb x (mLowerLimit j)); [assumption|].
    unfold validLimitsAndForce. simpl. now rewrite Htest, Hforce.
  - unfold setUpperLimit. destruct (dleb (mLowerLimit j) x) eqn:Htest; [|assumption].
    destruct (deqb x (mUpperLimit j)); [assumption|].
    unfold validLimitsAndForce. simpl. now rewrite Htest, Hforce.
  - exact Hvalid.
  - unfold setMaxMotorForce. destruct (dleb dzero x) eqn:Htest; [|assumption].
    unfold validLimitsAndForce. simpl. now rewrite Htest, Hlimits.
  - rewrite (validLimitsAndForce_parameters j); [assumption|].
    apply initBeforeSolve_keeps.
  - exact Hvalid.
  - rewrite (validLimitsAndForce_parameters j); [assumption|].
    apply solveVelocityConstraint_parameters.
  - exact Hvalid.
Qed.

Lemma perform_all_validLimitsAndForce
    (ops : list (Operation decimal)) (j : SliderJoint decimal) :
  validLimitsAndForce j = true -> validLimitsAndForce (perform_all ops j) = true.
Proof.
  revert j. induction ops as [|op ops IH]; intros j Hvalid; simpl.
  - exact Hvalid.
  - apply IH. now apply perform_validLimitsAndForce.
Qed.

Lemma SliderJoint_new_valid (info : SliderJointInfo decimal)
    (b1 b2 : BodyState decimal) (j0 : SliderJoint decimal) :
  SliderJoint_new info b1 b2 = Some j0 ->
  j0 = initialJoint info b1 b2 /\ validLimitsAndForce j0 = true.
Proof.
  unfold SliderJoint_new. destruct (validConfiguration info) eqn:Hvalid; [|discriminate].
  intros Hsome. injection Hsome as <-. split; [reflexivity | exact Hvalid].
Qed.

End Frames.

(* ================================================================= *)
(** ** Where an invalid configuration is stopped *)

Section Configuration.

Context {decimal : Type} {D : Decimal decimal} {G : JointGeometry decimal}.
Local Open Scope decimal_scope.

(** C2, as amended. The constructors of [SliderJointInfo] store the limits
    and the maximum motor force as they are passed, valid or not. An
    invalid configuration is stopped after them: the constructor of the
    joint makes no joint from a record that is not valid, and
    [setLowerLimit], [setUpperLimit] and [setMaxMotorForce] reject exactly
    the values that would break the order of the limits or the sign of the
    force. So for every sequence of operations on a constructed joint, the
    joint that enters a solve phase has its lower limit at most its upper
    limit and its maximum motor force at least zero. *)
Theorem configuration_valid_at_every_solve :
  (forall (b1 b2 : RigidBody) (anchor axis : Vector3 decimal)
          (lower upper speed force : decimal),
     let info := SliderJointInfo_newLimitsMotor b1 b2 anchor axis lower upper speed force in
     lowerLimit info = lower /\ upperLimit info = upper /\ maxMotorForce info = force
     /\ validConfiguration info = ((lower <=? upper) && (dzero <=? force))%bool)
  /\ (forall (b1 b2 : RigidBody) (anchor axis : Vector3 decimal) (lower upper : decimal),
        let info := SliderJointInfo_newLimits b1 b2 anchor axis lower upper in
        lowerLimit info = lower /\ upperLimit info = upper /\ maxMotorForce info = dzero
        /\ validConfiguration info = ((lower <=? upper) && (dzero <=? dzero))%bool)
  /\ (forall (info : SliderJointInfo decimal) (b1 b2 : BodyState decimal),
        SliderJoint_new info b1 b2
        = if validConfiguration info then Some (initialJoint info b1 b2) else None)
  /\ (forall (j : SliderJoint decimal) (x : decimal),
        (setLowerLimit x j = None <-> (x <=? mUpperLimit j) = false)
        /\ (setUpperLimit x j = None <-> (mLowerLimit j <=? x) = false)
        /\ (setMaxMotorForce x j = None <-> (dzero <=? x) = false))
  /\ (forall (info : SliderJointInfo decimal) (b1 b2 : BodyState decimal)
             (j0 : SliderJoint decimal) (ops : list (Operation decimal)),
        SliderJoint_new info b1 b2 = Some j0 ->
        let j := perform_all ops j0 in
        (mLowerLimit j <=? mUpperLimit j) = true
        /\ (dzero <=? mMaxMotorForce j) = true).
Proof.
  split; [|split; [|split; [|split]]].
  - intros. repeat split.
  - intros. repeat split.
  - reflexivity.
  - intros j x. unfold setLowerLimit, setUpperLimit, setMaxMotorForce.
    split; [|split].
    + destruct (x <=? mUpperLimit j); [|now split].
      destruct (x =? mLowerLimit j); split; discriminate.
    + destruct (mLowerLimit j <=? x); [|now split].
      destruct (x =? mUpperLimit j); split; discriminate.
    + destruct (dzero <=? x); split; (reflexivity || discriminate).
  - intros info b1 b2 j0 ops Hnew j.
    apply SliderJoint_new_valid in Hnew. destruct Hnew as [_ Hvalid].
    apply andb_true_iff.
    exact (perform_all_validLimitsAndForce ops j0 Hvalid).
Qed.

End Configuration.

(** C2, on an example: the motorized slider through [settings]. The lower
    limit 5, the upper limit -3, the force -1 and the force NaN are
    rejected; the joint ends with the limits 2 and 3 and the force 7. *)
Lemma configuration_valid_at_every_solve_example :
  let j := perform_all (G := xAxisGeometry) settings motorizedJoint in
  (PrimFloat.leb (mLowerLimit j) (mUpperLimit j) = true
   /\ PrimFloat.leb PrimFloat.zero (mMaxMotorForce j) = true)
  /\ (mLowerLimit j = 2 /\ mUpperLimit j = 3 /\ mMaxMotorForce j = 7)%float.
Proof.
  split.
  - exact (proj2 (proj2 (proj2 (proj2
             (configuration_valid_at_every_solve (G := xAxisGeometry)))))
             motorizedInfo (bodyAtRest PrimFloat.zero) (bodyAtRest PrimFloat.one)
             motorizedJoint settings eq_refl).
  - repeat split.
Defined.

(* ================================================================= *)
(** ** The accumulated motor impulse through the life of a joint *)

Section ImpulseFacts.

Context (G : JointGeometry float).
Local Open Scope float_scope.









End ImpulseFacts.


